(** * The MEDICALS Gmail agent workflow (backend/app/gmail_agent.py, main.py)

    A shallow embedding of the module [backend/app/gmail_agent.py] and of the
    routes of [backend/app/main.py], statement by statement.

    Conventions.
    - A Python [str] is a [string]: the bytes of its UTF-8 encoding.
    - The Python values the module builds (str, list, dict with str keys)
      are the type [pyval]; a dict keeps its insertion order, as in Python.
    - [os.environ] and the local dict [state] are finite maps ([gmap]).
    - An exception is a value of [exception]; code that can raise returns
      [exception + A].
    - The agents SDK is outside the module: the engine ([Runner.run]), the
      conversion [RunItem.to_input_item] and [json.dumps] are section
      variables; the trace scope is a pair of events in the log of the
      [world]. The conversions [model_dump], [json] and [to_input_item] are
      total.
    - pydantic's [json()] and the reader [json.loads] are modelled on the
      values of [pyval].

    The instruction text. The literal of lines 79-146 is a formatted string
    with the field [{state_subsidiaria}] four times and, in its JSON
    example, braces that are not doubled. [instructions_fstring] is the
    literal as the file has it, [fstring_compile] is what the compiler makes
    of a literal, and [medicals_gmail_agent_instructions] is the value of the
    literal so compiled. The compiler reads the whole file before the first
    statement of the module runs: [import_gmail_agent] compiles the literal
    first. *)

From Stdlib Require Import String Ascii List ZArith NArith QArith Lia Bool.
From stdpp Require Import gmap strings.

Import ListNotations.
Local Open Scope string_scope.
Local Open Scope list_scope.

(** ** Python values *)

Unset Elimination Schemes.
Inductive pyval : Type :=
| PStr (s : string)
| PList (l : list pyval)
| PDict (d : list (string * pyval)).
Set Elimination Schemes.

(** Induction over a value, its list elements and its dict members. *)
Definition pyval_ind (P : pyval -> Prop)
    (fstr : forall s, P (PStr s))
    (flist : forall l, Forall P l -> P (PList l))
    (fdict : forall d, Forall (fun kv => P (snd kv)) d -> P (PDict d)) :
  forall v, P v :=
  fix go (v : pyval) : P v :=
    match v with
    | PStr s => fstr s
    | PList l =>
        flist l ((fix go_list (l : list pyval) : Forall P l :=
                    match l with
                    | [] => @List.Forall_nil _ P
                    | x :: xs => @List.Forall_cons _ P x xs (go x) (go_list xs)
                    end) l)
    | PDict d =>
        fdict d ((fix go_dict (d : list (string * pyval)) :
                      Forall (fun kv => P (snd kv)) d :=
                    match d with
                    | [] => @List.Forall_nil _ _
                    | kv :: kvs =>
                        @List.Forall_cons _ _ kv kvs (go (snd kv)) (go_dict kvs)
                    end) d)
    end.

(** [d[key]] on the members of a dict (first match; a dict literal has each
    key once). *)
Fixpoint dict_get (key : string) (d : list (string * pyval)) : option pyval :=
  match d with
  | [] => None
  | (k, v) :: rest => if String.eqb k key then Some v else dict_get key rest
  end.

(** ** Exceptions *)

Inductive exception : Type :=
| RuntimeError (msg : string)
| KeyError (key : string)
| OtherException (cls msg : string).

(** [v[key]] : [KeyError] on a missing key, and on a value that has no keys. *)
Definition getitem (v : pyval) (key : string) : exception + pyval :=
  match v with
  | PDict d =>
      match dict_get key d with
      | Some x => inr x
      | None => inl (KeyError key)
      end
  | _ => inl (KeyError key)
  end.

(** ** Tool binding: [_gmail_mcp_tool] (lines 20-50) *)

Record HostedMCPTool : Type := { tool_config : pyval }.

(** [not expr] for [expr : Optional[str]] : [None] and the empty string. *)
Definition py_not (expr : option string) : bool :=
  match expr with
  | None => true
  | Some s => String.eqb s EmptyString
  end.

Definition allowed_tools_literal : list string :=
  [ "batch_read_email";
    "get_profile";
    "get_recent_emails";
    "read_email";
    "search_email_ids";
    "search_emails" ].

Definition missing_auth_message : string :=
  "Missing GMAIL_MCP_AUTH_EXPRESSION env var required for Gmail MCP access.".

Section ToolBinding.

(** [json.dumps] of the standard library. *)
Variable json_dumps : pyval -> string.

Definition _gmail_mcp_tool (environ : gmap string string)
  : exception + HostedMCPTool :=
  let expr := environ !! "GMAIL_MCP_AUTH_EXPRESSION" in
  if py_not expr then inl (RuntimeError missing_auth_message)
  else
    match expr with
    | None => inl (RuntimeError missing_auth_message)
    | Some expr =>
        let tool_config :=
          PDict
            [ ("type", PStr "mcp");
              ("server_label", PStr "gmail");
              ("allowed_tools", PList (map PStr allowed_tools_literal));
              ("authorization",
                PStr (json_dumps
                        (PDict [ ("expression", PStr expr);
                                 ("format", PStr "cel") ])));
              ("connector_id", PStr "connector_gmail");
              ("require_approval", PStr "never");
              ("server_description", PStr "NF AGENT") ] in
        inr {| tool_config := tool_config |}
    end.

End ToolBinding.

(** The allow-list a binding carries. *)
Definition allowed_tools (t : HostedMCPTool) : option pyval :=
  match tool_config t with
  | PDict d => dict_get "allowed_tools" d
  | _ => None
  end.

(** ** Run context (lines 70-72) *)

Record MedicalsGmailAgentContext : Type :=
  { state_subsidiaria : string }.

(** The wrapper the engine hands to an instruction function: the caller's
    context and the engine's own usage counters. *)
Record Usage : Type :=
  { requests : N; input_tokens : N; output_tokens : N; total_tokens : N }.

Record RunContextWrapper (TContext : Type) : Type :=
  { context : TContext; usage : Usage }.
Arguments context {TContext} _.
Arguments usage {TContext} _.

(** ** Instruction generator: [medicals_gmail_agent_instructions]
    (lines 75-146) *)

(** The double quote, and the two characters by which the source writes it
    inside the literal. *)
Definition dq : string := String "034" EmptyString.
Definition escaped_quote : string := String "092" dq.

(** [instructions_fstring] is the text of the literal as the source file has
    it, from the opening triple quote to the closing one. *)

Definition instructions_fstring : string :=
  String.concat escaped_quote
    [ "Buscar todos os e-mails do Gmail cujo label é exatamente ";
      "NF-MEDICOS/{state_subsidiaria}";
      ". Para cada e‑mail, verifique se há anexos que sejam arquivos .xml. Apenas baixe e processe anexos com essa extensão. Inclua no resultado somente até o máximo de 900 registros de anexos .xml baixados (não exceda esse número).

Após processar, gere um arquivo chamado `emails_data.json` contendo as informações extraídas dos e‑mails e dos anexos. 

# Passos recomendados

1. Conecte-se à conta do Gmail e busque e‑mails cujo label é exatamente ";
      "NF-MEDICOS/{state_subsidiaria}";
      ".
2. Para cada e‑mail listado, verifique todos os anexos:
    - Baixe apenas aqueles com extensão `.xml`.
    - Colete informações do e-mail (e.g. remetente, assunto, data) e dos anexos relevantes.
3. Pare assim que atingir o limite de 900 arquivos anexos .xml baixados, mesmo que haja mais disponíveis.
4. Salve todos os dados em um arquivo chamado `emails_data.json`.

# Output Format

- O resultado deve ser salvo em um arquivo `emails_data.json` com um array de objetos, onde cada objeto representa um e-mail com os metadados relevantes e os detalhes dos anexos .xml baixados.
- Exemplo em JSON (representativo):
  [
    {
      ";
      "email_id";
      ": ";
      "[ID do e-mail]";
      ",
      ";
      "remetente";
      ": ";
      "[endereçõ de e-mail]";
      ",
      ";
      "assunto";
      ": ";
      "[assunto do e-mail]";
      ",
      ";
      "data";
      ": ";
      "[timestamp ou data]";
      ",
      ";
      "anexos_xml";
      ": [
        {
          ";
      "nome_arquivo";
      ": ";
      "[nome do anexo.xml]";
      ",
          ";
      "conteudo_codificado";
      ": ";
      "[base64 ou link/localização do arquivo salvo]";
      "
        }
      ]
    }
    // ... (até o máximo de 900 anexos.xml no total)
  ]
- O arquivo completo não deve exceder o total de 900 arquivos .xml.

# Exemplo

Entrada: label ";
      "NF-MEDICOS/{state_subsidiaria}";
      "

Saída esperada em `emails_data.json`:

[
  {
    ";
      "email_id";
      ": ";
      "1234";
      ",
    ";
      "remetente";
      ": ";
      "exemplo@email.com";
      ",
    ";
      "assunto";
      ": ";
      "Envio de nota fiscal";
      ",
    ";
      "data";
      ": ";
      "2024-06-13T09:12:23Z";
      ",
    ";
      "anexos_xml";
      ": [
      {
        ";
      "nome_arquivo";
      ": ";
      "nf-123.xml";
      ",
        ";
      "conteudo_codificado";
      ": ";
      "[conteúdo base64 do xml ou caminho/local]";
      "
      }
    ]
  },
  // ...(outros e-mails, até somar 900 xmls)
]

(Observação: Para cada e-mail, inclua todos os anexos.xml, mas o total de anexos .xml no arquivo nunca deve ser maior que 900.)

# Notas

- Não processe anexos de outros formatos além de .xml.
- O critério do limite máximo refere-se ao número total de anexos .xml baixados e registrados no JSON, não ao número de e-mails.
- O label precisa ser igual ao valor de ";
      "NF-MEDICOS/{state_subsidiaria}";
      " (não inclua similares ou sublabels).
- Não escreva conclusões, apenas siga a lógica de busca, filtro, limite e gravação dos dados.
- Se menos de 900 anexos .xml forem encontrados, inclua todos.
- NÃO inclua outros textos no arquivo de saída além do próprio JSON.

IMPORTANTE: Acesse somente os e-mails que tenham exatamente o label informado; filtre apropriadamente; e respeite o limite de saída do total de 900 arquivos xml. " ].

(** A formatted string literal is literal text and replacement fields.  The
    scan below is the one of the Python compiler up to version 3.11: [{{]
    and [}}] stand for one brace, a single [{] opens a replacement field that
    runs to the matching [}], and the expression of a field cannot include a
    backslash.  (From version 3.12 the expression is tokenised as Python
    code, where a backslash that is not followed by a line end is rejected as
    well.)  A backslash before a brace is text and the brace is read as a
    brace.  Conversions and format specifications are not modelled, and of
    the escape sequences of literal text only those of [unescape]: the
    source has an escaped double quote and no other. *)
Inductive segment : Type :=
| Lit (text : string)
| Field (expr : string).

Inductive SyntaxError : Type :=
| BackslashInExpression
| SingleClosingBrace
| ExpectingClosingBrace
| EmptyExpression.

Definition cons_lit (c : ascii) (segs : list segment) : list segment :=
  match segs with
  | Lit s :: rest => Lit (String c s) :: rest
  | _ => Lit (String c EmptyString) :: segs
  end.

Definition cons_expr (c : ascii) (segs : list segment) : list segment :=
  match segs with
  | Field e :: rest => Field (String c e) :: rest
  | _ => segs
  end.

Definition map_ok {E A B : Type} (f : A -> B) (r : E + A) : E + B :=
  match r with
  | inl e => inl e
  | inr a => inr (f a)
  end.

(** The character an escape sequence of the literal text stands for. *)
Definition unescape (c : ascii) : option ascii :=
  match c with
  | "034"%char => Some "034"%char
  | "'"%char => Some "'"%char
  | "092"%char => Some "092"%char
  | "n"%char => Some "010"%char
  | "t"%char => Some "009"%char
  | "r"%char => Some "013"%char
  | _ => None
  end.

(** [depth = None] : in literal text; [depth = Some n] : in the expression of
    a replacement field, under [n] open brackets. *)
Fixpoint fstring_scan (depth : option nat) (s : string)
  : SyntaxError + list segment :=
  match depth with
  | None =>
      match s with
      | EmptyString => inr []
      | String "{" (String "{" r) => map_ok (cons_lit "{") (fstring_scan None r)
      | String "{" r => fstring_scan (Some 0) r
      | String "}" (String "}" r) => map_ok (cons_lit "}") (fstring_scan None r)
      | String "}" _ => inl SingleClosingBrace
      | String "092" (String c r as tail) =>
          if (Ascii.eqb c "{" || Ascii.eqb c "}")%bool
          then map_ok (cons_lit "092") (fstring_scan None tail)
          else
            match unescape c with
            | Some c' => map_ok (cons_lit c') (fstring_scan None r)
            | None =>
                map_ok (fun segs => cons_lit "092" (cons_lit c segs))
                       (fstring_scan None r)
            end
      | String c r => map_ok (cons_lit c) (fstring_scan None r)
      end
  | Some n =>
      match s with
      | EmptyString => inl ExpectingClosingBrace
      | String "092" _ => inl BackslashInExpression
      | String "}" r =>
          match n with
          | 0 => map_ok (cons (Field EmptyString)) (fstring_scan None r)
          | S n' => map_ok (cons_expr "}") (fstring_scan (Some n') r)
          end
      | String c r =>
          if (Ascii.eqb c "{" || Ascii.eqb c "[" || Ascii.eqb c "(")%bool
          then map_ok (cons_expr c) (fstring_scan (Some (S n)) r)
          else if (Ascii.eqb c "]" || Ascii.eqb c ")")%bool
          then map_ok (cons_expr c) (fstring_scan (Some (pred n)) r)
          else map_ok (cons_expr c) (fstring_scan (Some n) r)
      end
  end.

Definition is_empty_field (seg : segment) : bool :=
  match seg with
  | Field EmptyString => true
  | _ => false
  end.

Definition fstring_compile (s : string) : SyntaxError + list segment :=
  match fstring_scan None s with
  | inl e => inl e
  | inr segs =>
      if existsb is_empty_field segs then inl EmptyExpression else inr segs
  end.

(** The value of a compiled literal where the local names are bound as in
    [locals]; a field is the name of a local variable. *)
Fixpoint fstring_render (locals : list (string * string)) (segs : list segment)
  : option string :=
  match segs with
  | [] => Some EmptyString
  | Lit text :: rest =>
      match fstring_render locals rest with
      | Some s => Some (text +:+ s)
      | None => None
      end
  | Field expr :: rest =>
      match List.find (fun kv => String.eqb (fst kv) expr) locals,
            fstring_render locals rest with
      | Some (_, v), Some s => Some (v +:+ s)
      | _, _ => None
      end
  end.

(** The exception the compiler raises for a literal it rejects, with the
    message of Python 3.11. *)
Definition literal_error (e : SyntaxError) : exception :=
  OtherException "SyntaxError"
    match e with
    | BackslashInExpression =>
        "f-string expression part cannot include a backslash"
    | SingleClosingBrace => "f-string: single '}' is not allowed"
    | ExpectingClosingBrace => "f-string: expecting '}'"
    | EmptyExpression => "f-string: empty expression not allowed"
    end.

(** The function returns the value of its literal, where the one str among
    its local names is [state_subsidiaria] (line 78). A module is compiled
    as a whole, so a function whose literal the compiler rejects is never
    defined: the embedding gives the compiler's error for every argument. A
    field that names no str local is outside the model; the source has
    none. *)
Definition medicals_gmail_agent_instructions {A : Type}
    (run_context : RunContextWrapper MedicalsGmailAgentContext) (_agent : A)
  : exception + string :=
  let state_subsidiaria := state_subsidiaria (context run_context) in
  match fstring_compile instructions_fstring with
  | inl e => inl (literal_error e)
  | inr segs =>
      match fstring_render [ ("state_subsidiaria", state_subsidiaria) ] segs with
      | Some text => inr text
      | None => inl (OtherException "NameError" "name is not defined")
      end
  end.

(** ** Output schema (lines 53-67) *)

Record MedicalsGmailAgentSchema__AnexosXmlItem : Type :=
  { nome_arquivo : string;
    conteudo_codificado : string }.

Record MedicalsGmailAgentSchema__EmailsItem : Type :=
  { email_id : string;
    remetente : string;
    assunto : string;
    data : string;
    anexos_xml : list MedicalsGmailAgentSchema__AnexosXmlItem }.

Record MedicalsGmailAgentSchema : Type :=
  { emails : list MedicalsGmailAgentSchema__EmailsItem }.

Record WorkflowInput : Type := { input_as_text : string }.

(** *** [BaseModel.model_dump] : a model as a dict of its fields, in the
    order the class declares them; a model field as its own dict, a list
    field as the list of its elements' values. *)
Module ModelDump.

Definition AnexosXmlItem (a : MedicalsGmailAgentSchema__AnexosXmlItem) : pyval :=
  PDict [ ("nome_arquivo", PStr (nome_arquivo a));
          ("conteudo_codificado", PStr (conteudo_codificado a)) ].

Definition EmailsItem (e : MedicalsGmailAgentSchema__EmailsItem) : pyval :=
  PDict [ ("email_id", PStr (email_id e));
          ("remetente", PStr (remetente e));
          ("assunto", PStr (assunto e));
          ("data", PStr (data e));
          ("anexos_xml", PList (map AnexosXmlItem (anexos_xml e))) ].

Definition Schema (m : MedicalsGmailAgentSchema) : pyval :=
  PDict [ ("emails", PList (map EmailsItem (emails m))) ].

Definition Input (w : WorkflowInput) : pyval :=
  PDict [ ("input_as_text", PStr (input_as_text w)) ].

End ModelDump.

(** *** JSON text *)
Module Json.

Definition bs : ascii := "092".

Definition hex_digit (n : N) : ascii :=
  if (n <? 10)%N then ascii_of_N (48 + n) else ascii_of_N (87 + n).

(** One character of a str inside a JSON string: the quote, the backslash
    and the control characters are escaped, every other byte is written
    as it is. *)
Definition escape_char (c : ascii) : string :=
  match c with
  | "034"%char => String bs (String "034" EmptyString)
  | "092"%char => String bs (String bs EmptyString)
  | "008"%char => String bs "b"
  | "012"%char => String bs "f"
  | "010"%char => String bs "n"
  | "013"%char => String bs "r"
  | "009"%char => String bs "t"
  | _ =>
      let n := N_of_ascii c in
      if (n <? 32)%N
      then String bs (String "u" (String "0" (String "0"
             (String (hex_digit (n / 16)) (String (hex_digit (n mod 16))
                EmptyString)))))
      else String c EmptyString
  end.

Fixpoint escape (s : string) : string :=
  match s with
  | EmptyString => EmptyString
  | String c r => escape_char c +:+ escape r
  end.

Definition json_string (s : string) : string := dq +:+ escape s +:+ dq.

Fixpoint join_comma (l : list string) : string :=
  match l with
  | [] => EmptyString
  | x :: xs =>
      match xs with
      | [] => x
      | _ :: _ => x +:+ "," +:+ join_comma xs
      end
  end.

(** The compact JSON text of a value: no space after a comma or a colon,
    dict members in the order of the dict. *)
Fixpoint encode (v : pyval) : string :=
  match v with
  | PStr s => json_string s
  | PList l =>
      "[" +:+ join_comma
                ((fix encode_list (l : list pyval) : list string :=
                    match l with
                    | [] => []
                    | x :: xs => encode x :: encode_list xs
                    end) l) +:+ "]"
  | PDict d =>
      "{" +:+ join_comma
                ((fix encode_dict (d : list (string * pyval)) : list string :=
                    match d with
                    | [] => []
                    | (k, x) :: kvs =>
                        (json_string k +:+ ":" +:+ encode x) :: encode_dict kvs
                    end) d) +:+ "}"
  end.

(** [BaseModel.json()] (pydantic 2: [model_dump_json]), class by class. *)
Definition member (key : string) (value : string) : string :=
  json_string key +:+ ":" +:+ value.

Definition AnexosXmlItem_json (a : MedicalsGmailAgentSchema__AnexosXmlItem)
  : string :=
  "{" +:+ join_comma
            [ member "nome_arquivo" (json_string (nome_arquivo a));
              member "conteudo_codificado"
                     (json_string (conteudo_codificado a)) ] +:+ "}".

Definition EmailsItem_json (e : MedicalsGmailAgentSchema__EmailsItem)
  : string :=
  "{" +:+ join_comma
            [ member "email_id" (json_string (email_id e));
              member "remetente" (json_string (remetente e));
              member "assunto" (json_string (assunto e));
              member "data" (json_string (data e));
              member "anexos_xml"
                ("[" +:+ join_comma (map AnexosXmlItem_json (anexos_xml e))
                     +:+ "]") ] +:+ "}".

Definition Schema_json (m : MedicalsGmailAgentSchema) : string :=
  "{" +:+ join_comma
            [ member "emails"
                ("[" +:+ join_comma (map EmailsItem_json (emails m))
                     +:+ "]") ] +:+ "}".

End Json.

(** *** Reading JSON text: [json.loads] on texts whose values are strings,
    arrays and objects (numbers and the literals [true], [false], [null] are
    outside the values of this module and are not read). *)
Module JsonLoads.

Definition is_ws (c : ascii) : bool :=
  (Ascii.eqb c " " || Ascii.eqb c "009" || Ascii.eqb c "010"
   || Ascii.eqb c "013")%bool.

Fixpoint skip_ws (s : string) : string :=
  match s with
  | String c r => if is_ws c then skip_ws r else s
  | EmptyString => s
  end.

Definition hex_value (c : ascii) : option N :=
  let n := N_of_ascii c in
  if ((48 <=? n) && (n <=? 57))%N then Some (n - 48)%N
  else if ((97 <=? n) && (n <=? 102))%N then Some (n - 87)%N
  else if ((65 <=? n) && (n <=? 70))%N then Some (n - 55)%N
  else None.

(** The UTF-8 bytes of a code point of the basic plane; a surrogate has
    none. *)
Definition utf8_encode (cp : N) : option string :=
  if (cp <? 128)%N then Some (String (ascii_of_N cp) EmptyString)
  else if (cp <? 2048)%N then
    Some (String (ascii_of_N (192 + cp / 64))
           (String (ascii_of_N (128 + cp mod 64)) EmptyString))
  else if ((55296 <=? cp) && (cp <=? 57343))%N then None
  else
    Some (String (ascii_of_N (224 + cp / 4096))
           (String (ascii_of_N (128 + (cp / 64) mod 64))
             (String (ascii_of_N (128 + cp mod 64)) EmptyString))).

Definition unicode_escape (h1 h2 h3 h4 : ascii) : option string :=
  match hex_value h1, hex_value h2, hex_value h3, hex_value h4 with
  | Some a, Some b, Some c, Some d =>
      utf8_encode (((a * 16 + b) * 16 + c) * 16 + d)
  | _, _, _, _ => None
  end.

Definition prepend (p : string) (r : option (string * string))
  : option (string * string) :=
  match r with
  | Some (s, rest) => Some (p +:+ s, rest)
  | None => None
  end.

(** The body of a string, after its opening quote: the str and the text
    after the closing quote. *)
Fixpoint parse_string (s : string) : option (string * string) :=
  match s with
  | EmptyString => None
  | String "034" r => Some (EmptyString, r)
  | String "092" (String c r) =>
      match c with
      | "034"%char => prepend (String "034" EmptyString) (parse_string r)
      | "092"%char => prepend (String "092" EmptyString) (parse_string r)
      | "/"%char => prepend "/" (parse_string r)
      | "b"%char => prepend (String "008" EmptyString) (parse_string r)
      | "f"%char => prepend (String "012" EmptyString) (parse_string r)
      | "n"%char => prepend (String "010" EmptyString) (parse_string r)
      | "r"%char => prepend (String "013" EmptyString) (parse_string r)
      | "t"%char => prepend (String "009" EmptyString) (parse_string r)
      | "u"%char =>
          match r with
          | String h1 (String h2 (String h3 (String h4 r'))) =>
              match unicode_escape h1 h2 h3 h4 with
              | Some bytes => prepend bytes (parse_string r')
              | None => None
              end
          | _ => None
          end
      | _ => None
      end
  | String "092" EmptyString => None
  | String c r =>
      if (N_of_ascii c <? 32)%N then None
      else prepend (String c EmptyString) (parse_string r)
  end.

(** Storing a member in a dict: a key that is there keeps its place and
    takes the new value. *)
Fixpoint dict_set (k : string) (v : pyval) (d : list (string * pyval))
  : list (string * pyval) :=
  match d with
  | [] => [(k, v)]
  | (k', v') :: rest =>
      if String.eqb k' k then (k', v) :: rest
      else (k', v') :: dict_set k v rest
  end.

Definition dict_of_pairs (kvs : list (string * pyval))
  : list (string * pyval) :=
  fold_left (fun d kv => dict_set (fst kv) (snd kv) d) kvs [].

Fixpoint parse_value (fuel : nat) (s : string) : option (pyval * string) :=
  match fuel with
  | 0 => None
  | S fuel =>
      match skip_ws s with
      | String "034" r =>
          match parse_string r with
          | Some (str, r') => Some (PStr str, r')
          | None => None
          end
      | String "[" r =>
          match skip_ws r with
          | String "]" r' => Some (PList [], r')
          | _ =>
              match parse_elements fuel r with
              | Some (l, r') => Some (PList l, r')
              | None => None
              end
          end
      | String "{" r =>
          match skip_ws r with
          | String "}" r' => Some (PDict [], r')
          | _ =>
              match parse_members fuel r with
              | Some (kvs, r') => Some (PDict (dict_of_pairs kvs), r')
              | None => None
              end
          end
      | _ => None
      end
  end
with parse_elements (fuel : nat) (s : string)
  : option (list pyval * string) :=
  match fuel with
  | 0 => None
  | S fuel =>
      match parse_value fuel s with
      | Some (v, r) =>
          match skip_ws r with
          | String "," r' =>
              match parse_elements fuel r' with
              | Some (vs, r'') => Some (v :: vs, r'')
              | None => None
              end
          | String "]" r' => Some ([v], r')
          | _ => None
          end
      | None => None
      end
  end
with parse_members (fuel : nat) (s : string)
  : option (list (string * pyval) * string) :=
  match fuel with
  | 0 => None
  | S fuel =>
      match skip_ws s with
      | String "034" r =>
          match parse_string r with
          | Some (k, r1) =>
              match skip_ws r1 with
              | String ":" r2 =>
                  match parse_value fuel r2 with
                  | Some (v, r3) =>
                      match skip_ws r3 with
                      | String "," r4 =>
                          match parse_members fuel r4 with
                          | Some (kvs, r5) => Some ((k, v) :: kvs, r5)
                          | None => None
                          end
                      | String "}" r4 => Some ([(k, v)], r4)
                      | _ => None
                      end
                  | None => None
                  end
              | _ => None
              end
          | None => None
          end
      | _ => None
      end
  end.

(** The whole text is one value; the nesting of a text is below its
    length. *)
Definition loads (s : string) : option pyval :=
  match parse_value (S (String.length s)) s with
  | Some (v, rest) =>
      match skip_ws rest with
      | EmptyString => Some v
      | String _ _ => None
      end
  | None => None
  end.

End JsonLoads.

(** ** Agent definition (lines 149-161) *)

Record ModelSettings : Type :=
  { temperature : Q;
    top_p : Q;
    max_tokens : N;
    store : bool }.

(** What an agent holds besides its instruction function; the engine hands
    the agent to that function, which reads these fields of it, if any. *)
Record AgentFields : Type :=
  { name : string;
    model : string;
    tools : list HostedMCPTool;
    output_type : string;
    model_settings : ModelSettings }.

Record Agent (TContext : Type) : Type :=
  { fields : AgentFields;
    instructions :
      RunContextWrapper TContext -> AgentFields -> exception + string }.
Arguments fields {TContext} _.
Arguments instructions {TContext} _ _ _.

(** The module builds [mcp] first and the agent from it. *)
Definition medicals_gmail_agent (mcp : HostedMCPTool)
  : Agent MedicalsGmailAgentContext :=
  {| fields :=
       {| name := "MEDICALS Gmail Agent";
          model := "gpt-4.1-mini";
          tools := [mcp];
          output_type := "MedicalsGmailAgentSchema";
          model_settings :=
            {| temperature := (15 # 100)%Q;
               top_p := (1 # 1)%Q;
               max_tokens := 2048;
               store := true |} |};
     instructions := medicals_gmail_agent_instructions |}.

(** The names the module binds when it is imported. *)
Record module_globals : Type :=
  { g_mcp : HostedMCPTool;
    g_medicals_gmail_agent : Agent MedicalsGmailAgentContext }.

Section ImportModule.

Variable json_dumps : pyval -> string.

(** Importing [gmail_agent] compiles the text of the module and then runs
    its top-level statements in order: a literal the compiler rejects ends
    the import before any statement runs; line 50 builds [mcp], and an
    exception there ends the import. *)
Definition import_gmail_agent (environ : gmap string string)
  : exception + module_globals :=
  match fstring_compile instructions_fstring with
  | inl e => inl (literal_error e)
  | inr _ =>
      match _gmail_mcp_tool json_dumps environ with
      | inl e => inl e
      | inr mcp =>
          inr {| g_mcp := mcp;
                 g_medicals_gmail_agent := medicals_gmail_agent mcp |}
      end
  end.

End ImportModule.

(** ** Workflow runner: [run_workflow] (lines 168-207) *)

Record RunConfig : Type :=
  { trace_metadata : gmap string string }.

Record RunnerCall : Type :=
  { call_agent : Agent MedicalsGmailAgentContext;
    call_input : list pyval;
    call_run_config : RunConfig;
    call_context : MedicalsGmailAgentContext }.

Section Workflow.

(** The engine's items and their conversion to conversation items. *)
Variable RunItem : Type.
Variable to_input_item : RunItem -> pyval.

Record RunResult : Type :=
  { new_items : list RunItem;
    final_output : MedicalsGmailAgentSchema }.

(** The engine: [Runner.run] answers a call with a result or raises, and
    may change its own state (the model, the mailbox behind the tool). *)
Variable EngineState : Type.
Variable Runner_run :
  RunnerCall -> EngineState -> (exception + RunResult) * EngineState.

(** What a run does to its surroundings, in order. *)
Inductive event : Type :=
| TraceStart (workflow_name : string)
| TraceFinish (workflow_name : string)
| EngineInvoked (call : RunnerCall).

Record world : Type :=
  { events : list event;
    engine : EngineState }.

Definition emit (e : event) (w : world) : world :=
  {| events := events w ++ [e]; engine := engine w |}.

(** Code that can raise and acts on the world. *)
Definition M (A : Type) : Type := world -> (exception + A) * world.

Definition ret {A : Type} (a : A) : M A := fun w => (inr a, w).

Definition raise {A : Type} (e : exception) : M A := fun w => (inl e, w).

Definition bind {A B : Type} (m : M A) (k : A -> M B) : M B :=
  fun w =>
    match m w with
    | (inl e, w') => (inl e, w')
    | (inr a, w') => k a w'
    end.

Definition lift {A : Type} (r : exception + A) : M A := fun w => (r, w).

(** [with trace(name): body] : the scope is entered, the body runs, and
    the scope is left on the way out, by a return or by an exception,
    which goes on to the caller. *)
Definition with_trace {A : Type} (workflow_name : string) (body : M A)
  : M A :=
  fun w =>
    let (r, w') := body (emit (TraceStart workflow_name) w) in
    (r, emit (TraceFinish workflow_name) w').

(** [await Runner.run(...)] *)
Definition await_run (call : RunnerCall) : M RunResult :=
  fun w =>
    let (r, s) := Runner_run call (engine w) in
    (r, {| events := events w ++ [EngineInvoked call]; engine := s |}).

(** [state[key]] *)
Definition state_getitem (state : gmap string string) (key : string)
  : exception + string :=
  match state !! key with
  | Some v => inr v
  | None => inl (KeyError key)
  end.

Definition user_message (text : pyval) : pyval :=
  PDict
    [ ("role", PStr "user");
      ("content",
        PList [ PDict [ ("type", PStr "input_text");
                        ("text", text) ] ]) ].

Definition workflow_run_config : RunConfig :=
  {| trace_metadata :=
       <[ "__trace_source__" := "agent-builder" ]>
         {[ "workflow_id" :=
              "wf_69017440b2048190a72ae533ac695e3f0b27e32e86827535" ]} |}.

(** The arguments of the call of lines 186-196. *)
Definition runner_call (g : module_globals) (input : list pyval)
    (subsidiaria : string) : RunnerCall :=
  {| call_agent := g_medicals_gmail_agent g;
     call_input := input;
     call_run_config := workflow_run_config;
     call_context := {| state_subsidiaria := subsidiaria |} |}.

(** The local variables of [run_workflow] when it returns. *)
Record frame : Type :=
  { conversation_history : list pyval;
    medicals_gmail_agent_result : pyval }.

Local Notation "x <- m ;; k" := (bind m (fun x => k))
  (at level 100, m at next level, right associativity).

(** The statements under the [with] of lines 170-207. *)
Definition run_workflow_body (g : module_globals)
    (workflow_input : WorkflowInput) : M frame :=
  let state : gmap string string := {[ "subsidiaria" := "MEDICALS" ]} in
  let workflow := ModelDump.Input workflow_input in
  text <- lift (getitem workflow "input_as_text") ;;
  let conversation_history := [ user_message text ] in
  subsidiaria <- lift (state_getitem state "subsidiaria") ;;
  medicals_gmail_agent_result_temp <-
    await_run (runner_call g conversation_history subsidiaria) ;;
  let conversation_history :=
    conversation_history
      ++ map to_input_item (new_items medicals_gmail_agent_result_temp) in
  let medicals_gmail_agent_result :=
    PDict
      [ ("output_text",
          PStr (Json.Schema_json
                  (final_output medicals_gmail_agent_result_temp)));
        ("output_parsed",
          ModelDump.Schema
            (final_output medicals_gmail_agent_result_temp)) ] in
  ret {| conversation_history := conversation_history;
         medicals_gmail_agent_result := medicals_gmail_agent_result |}.

Definition run_workflow_frame (g : module_globals)
    (workflow_input : WorkflowInput) : M frame :=
  with_trace "NF-MEDICOS" (run_workflow_body g workflow_input).

Definition run_workflow (g : module_globals)
    (workflow_input : WorkflowInput) : M pyval :=
  fr <- run_workflow_frame g workflow_input ;;
  ret (medicals_gmail_agent_result fr).

(** ** The routes of main.py *)

Definition run_medicals_gmail_agent (g : module_globals)
    (payload : WorkflowInput) : M pyval :=
  run_workflow g payload.

Definition health_check : pyval := PDict [ ("status", PStr "healthy") ].

End Workflow.

(** *** [BaseModel.model_validate] : the model a dict of fields stands for. *)
Module ModelValidate.

Definition str_field (key : string) (d : list (string * pyval))
  : option string :=
  match dict_get key d with
  | Some (PStr s) => Some s
  | _ => None
  end.

Fixpoint each {A : Type} (f : pyval -> option A) (l : list pyval)
  : option (list A) :=
  match l with
  | [] => Some []
  | x :: xs =>
      match f x, each f xs with
      | Some a, Some r => Some (a :: r)
      | _, _ => None
      end
  end.

Definition list_field {A : Type} (f : pyval -> option A) (key : string)
    (d : list (string * pyval)) : option (list A) :=
  match dict_get key d with
  | Some (PList l) => each f l
  | _ => None
  end.

Definition AnexosXmlItem (v : pyval)
  : option MedicalsGmailAgentSchema__AnexosXmlItem :=
  match v with
  | PDict d =>
      match str_field "nome_arquivo" d, str_field "conteudo_codificado" d with
      | Some n, Some c =>
          Some {| nome_arquivo := n; conteudo_codificado := c |}
      | _, _ => None
      end
  | _ => None
  end.

Definition EmailsItem (v : pyval)
  : option MedicalsGmailAgentSchema__EmailsItem :=
  match v with
  | PDict d =>
      match str_field "email_id" d, str_field "remetente" d,
            str_field "assunto" d, str_field "data" d,
            list_field AnexosXmlItem "anexos_xml" d with
      | Some i, Some r, Some a, Some t, Some xs =>
          Some {| email_id := i; remetente := r; assunto := a; data := t;
                  anexos_xml := xs |}
      | _, _, _, _, _ => None
      end
  | _ => None
  end.

Definition Schema (v : pyval) : option MedicalsGmailAgentSchema :=
  match v with
  | PDict d =>
      match list_field EmailsItem "emails" d with
      | Some es => Some {| emails := es |}
      | None => None
      end
  | _ => None
  end.

End ModelValidate.

(** The attachment records of an output, over all its emails. *)
Definition total_anexos (m : MedicalsGmailAgentSchema) : nat :=
  list_sum (map (fun e => length (anexos_xml e)) (emails m)).

(** The attachment records in the dict of an output. *)
Definition anexos_in_email (v : pyval) : nat :=
  match v with
  | PDict d =>
      match dict_get "anexos_xml" d with
      | Some (PList l) => length l
      | _ => 0
      end
  | _ => 0
  end.

Definition anexos_in_output (v : pyval) : nat :=
  match v with
  | PDict d =>
      match dict_get "emails" d with
      | Some (PList l) => list_sum (map anexos_in_email l)
      | _ => 0
      end
  | _ => 0
  end.

(** A value is well formed when no dict in it has a key twice, as in every
    Python value. *)
Fixpoint unique_keys (keys : list string) : bool :=
  match keys with
  | [] => true
  | k :: rest => negb (existsb (String.eqb k) rest) && unique_keys rest
  end.

Fixpoint well_formed (v : pyval) : bool :=
  match v with
  | PStr _ => true
  | PList l =>
      (fix all (l : list pyval) : bool :=
         match l with
         | [] => true
         | x :: xs => well_formed x && all xs
         end) l
  | PDict d =>
      unique_keys (map fst d) &&
      (fix all (d : list (string * pyval)) : bool :=
         match d with
         | [] => true
         | (_, x) :: kvs => well_formed x && all kvs
         end) d
  end.

(** The nodes of a value: the fuel that reads its text. *)
Fixpoint nodes (v : pyval) : nat :=
  match v with
  | PStr _ => 1
  | PList l =>
      S ((fix sum (l : list pyval) : nat :=
            match l with
            | [] => 0
            | x :: xs => S (nodes x + sum xs)
            end) l)
  | PDict d =>
      S ((fix sum (d : list (string * pyval)) : nat :=
            match d with
            | [] => 0
            | (_, x) :: kvs => S (nodes x + sum kvs)
            end) d)
  end.

Arguments new_items {RunItem} _.
Arguments final_output {RunItem} _.
Arguments events {EngineState} _.
Arguments engine {EngineState} _.
Arguments run_workflow_body {RunItem} _ {EngineState} _ _ _ _.
Arguments run_workflow_frame {RunItem} _ {EngineState} _ _ _ _.
Arguments run_workflow {RunItem} _ {EngineState} _ _ _ _.
Arguments run_medicals_gmail_agent {RunItem} _ {EngineState} _ _ _ _.

(** The conversation a run starts from, the one call it makes, and the
    result it packages. *)
Definition seed (workflow_input : WorkflowInput) : list pyval :=
  [ user_message (PStr (input_as_text workflow_input)) ].

Definition the_call (g : module_globals) (workflow_input : WorkflowInput)
  : RunnerCall :=
  runner_call g (seed workflow_input) "MEDICALS".

Definition package (fo : MedicalsGmailAgentSchema) : pyval :=
  PDict [ ("output_text", PStr (Json.Schema_json fo));
          ("output_parsed", ModelDump.Schema fo) ].

(** The events of one run, after those of [w]. *)
Definition after_call {EngineState : Type} (g : module_globals)
    (workflow_input : WorkflowInput) (w : world EngineState)
    (s : EngineState) : world EngineState :=
  {| events := events w ++ [ TraceStart "NF-MEDICOS";
                             EngineInvoked (the_call g workflow_input);
                             TraceFinish "NF-MEDICOS" ];
     engine := s |}.

Definition is_finish (e : event) : bool :=
  match e with
  | TraceFinish _ => true
  | _ => false
  end.

Definition is_start (e : event) : bool :=
  match e with
  | TraceStart _ => true
  | _ => false
  end.

(** ** Sample values for the worked examples *)
Module Sample.

(** An engine that gives the same answer to every call and keeps no
    state; its items are conversation items already. *)
Definition answer_with (answer : exception + RunResult pyval)
  : RunnerCall -> unit -> (exception + RunResult pyval) * unit :=
  fun _ s => (answer, s).

Definition as_it_is (item : pyval) : pyval := item.

Definition start : world unit := {| events := []; engine := tt |}.

Definition tool : HostedMCPTool :=
  {| tool_config :=
       PDict [ ("type", PStr "mcp");
               ("allowed_tools", PList (map PStr allowed_tools_literal)) ] |}.

Definition globals : module_globals :=
  {| g_mcp := tool; g_medicals_gmail_agent := medicals_gmail_agent tool |}.

Definition input : WorkflowInput := {| input_as_text := "run" |}.

Definition no_emails : RunResult pyval :=
  {| new_items := []; final_output := {| emails := [] |} |}.

Definition anexo : MedicalsGmailAgentSchema__AnexosXmlItem :=
  {| nome_arquivo := "nf-123.xml"; conteudo_codificado := "PG5mZS8+" |}.

Definition email (n : nat) : MedicalsGmailAgentSchema__EmailsItem :=
  {| email_id := "1234";
     remetente := "exemplo@email.com";
     assunto := "Envio de nota fiscal";
     data := "2024-06-13T09:12:23Z";
     anexos_xml := repeat anexo n |}.

Definition reply : pyval :=
  PDict [ ("role", PStr "assistant"); ("content", PStr "ok") ].

(** Two emails with 901 attachment records between them. *)
Definition many_anexos : RunResult pyval :=
  {| new_items := [ reply; reply ];
     final_output := {| emails := [ email 900; email 1 ] |} |}.

Definition one_email : RunResult pyval :=
  {| new_items := [ reply ];
     final_output := {| emails := [ email 2 ] |} |}.

Definition timeout : exception :=
  OtherException "TimeoutError" "the model did not answer".

Definition authorization : gmap string string :=
  {[ "GMAIL_MCP_AUTH_EXPRESSION" := "request.auth.token" ]}.

End Sample.

(** ** Auxiliary definitions for the JSON text of a value *)

(** One member of a dict in its text. *)
Definition encode_member (kv : string * pyval) : string :=
  Json.json_string (fst kv) +:+ ":" +:+ Json.encode (snd kv).

(** The nodes of the elements of a list and of the members of a dict. *)
Definition nodes_of_list (l : list pyval) : nat :=
  list_sum (map (fun x => S (nodes x)) l).

Definition nodes_of_dict (d : list (string * pyval)) : nat :=
  list_sum (map (fun kv => S (nodes (snd kv))) d).

(** The text of a value opens with a quote, a bracket or a brace. *)
Inductive opener : ascii -> Prop :=
| opener_quote : opener "034"
| opener_bracket : opener "["
| opener_brace : opener "{".

(** What a value has to give its reader. *)
Definition reads_back (v : pyval) : Prop :=
  well_formed v = true ->
  forall fuel rest,
    nodes v <= fuel ->
    JsonLoads.parse_value fuel (Json.encode v +:+ rest) = Some (v, rest).

(** * Properties *)

(** ** Tool binding *)

Section ToolBindingFacts.

Variable json_dumps : pyval -> string.

Lemma py_not_true_iff (expr : option string) :
  py_not expr = true <-> expr = None \/ expr = Some EmptyString.
Proof.
  destruct expr as [s|]; simpl.
  - rewrite String.eqb_eq. split.
    + intros ->. now right.
    + intros [H|H]; congruence.
  - split; auto.
Qed.

Lemma gmail_mcp_tool_raises (environ : gmap string string) :
  py_not (environ !! "GMAIL_MCP_AUTH_EXPRESSION") = true ->
  _gmail_mcp_tool json_dumps environ = inl (RuntimeError missing_auth_message).
Proof. intros H. unfold _gmail_mcp_tool. now rewrite H. Qed.

Lemma gmail_mcp_tool_returns (environ : gmap string string) (expr : string) :
  environ !! "GMAIL_MCP_AUTH_EXPRESSION" = Some expr ->
  expr <> EmptyString ->
  exists tool,
    _gmail_mcp_tool json_dumps environ = inr tool /\
    allowed_tools tool = Some (PList (map PStr allowed_tools_literal)).
Proof.
  intros Hget Hne. unfold _gmail_mcp_tool. rewrite Hget. simpl.
  apply String.eqb_neq in Hne. rewrite Hne.
  eexists. split; reflexivity.
Qed.

End ToolBindingFacts.

(** ** Workflow runner *)

Section WorkflowFacts.

Context {RunItem : Type} (to_input_item : RunItem -> pyval).
Context {EngineState : Type}.
Context (Runner_run :
  RunnerCall -> EngineState
  -> (exception + RunResult RunItem) * EngineState).

Lemma run_workflow_frame_unfold g workflow_input (w : world EngineState) :
  run_workflow_frame to_input_item Runner_run g workflow_input w =
  match Runner_run (the_call g workflow_input) (engine w) with
  | (inl e, s) => (inl e, after_call g workflow_input w s)
  | (inr r, s) =>
      (inr {| conversation_history :=
                seed workflow_input ++ map to_input_item (new_items r);
              medicals_gmail_agent_result := package (final_output r) |},
       after_call g workflow_input w s)
  end.
Proof.
  unfold run_workflow_frame, with_trace, run_workflow_body, bind, lift,
    state_getitem, await_run, ret.
  rewrite lookup_singleton_eq. simpl.
  fold (seed workflow_input). fold (the_call g workflow_input).
  unfold after_call.
  destruct (Runner_run (the_call g workflow_input) (engine w)) as [[e|r] s];
    unfold emit; simpl; rewrite <- !app_assoc; reflexivity.
Qed.

Lemma run_workflow_unfold g workflow_input (w : world EngineState) :
  run_workflow to_input_item Runner_run g workflow_input w =
  match Runner_run (the_call g workflow_input) (engine w) with
  | (inl e, s) => (inl e, after_call g workflow_input w s)
  | (inr r, s) =>
      (inr (package (final_output r)), after_call g workflow_input w s)
  end.
Proof.
  unfold run_workflow, bind.
  rewrite run_workflow_frame_unfold.
  destruct (Runner_run (the_call g workflow_input) (engine w)) as [[e|r] s];
    reflexivity.
Qed.

End WorkflowFacts.

(** ** Model dump and validation *)

Lemma each_map {A : Type} (f : pyval -> option A) (dump : A -> pyval)
    (l : list A) :
  (forall a, f (dump a) = Some a) ->
  ModelValidate.each f (map dump l) = Some l.
Proof.
  intros Hf. induction l as [|a l IH]; simpl.
  - reflexivity.
  - now rewrite Hf, IH.
Qed.

Lemma validate_dump_anexo (a : MedicalsGmailAgentSchema__AnexosXmlItem) :
  ModelValidate.AnexosXmlItem (ModelDump.AnexosXmlItem a) = Some a.
Proof. now destruct a. Qed.

Lemma validate_dump_email (e : MedicalsGmailAgentSchema__EmailsItem) :
  ModelValidate.EmailsItem (ModelDump.EmailsItem e) = Some e.
Proof.
  destruct e as [i r a t xs].
  unfold ModelValidate.EmailsItem, ModelDump.EmailsItem,
    ModelValidate.list_field. simpl.
  now rewrite (each_map _ _ xs validate_dump_anexo).
Qed.

Lemma validate_dump_schema (m : MedicalsGmailAgentSchema) :
  ModelValidate.Schema (ModelDump.Schema m) = Some m.
Proof.
  destruct m as [es].
  unfold ModelValidate.Schema, ModelDump.Schema, ModelValidate.list_field.
  simpl. now rewrite (each_map _ _ es validate_dump_email).
Qed.

Lemma anexos_in_email_dump (e : MedicalsGmailAgentSchema__EmailsItem) :
  anexos_in_email (ModelDump.EmailsItem e) = length (anexos_xml e).
Proof. unfold anexos_in_email. simpl. apply length_map. Qed.

Lemma anexos_in_output_dump (m : MedicalsGmailAgentSchema) :
  anexos_in_output (ModelDump.Schema m) = total_anexos m.
Proof.
  unfold anexos_in_output, total_anexos. simpl. f_equal.
  rewrite map_map. apply map_ext. intros e. apply anexos_in_email_dump.
Qed.

(** ** JSON text: reading back what [encode] writes *)

#[local] Arguments String.append !s1 s2 : simpl nomatch.

Lemma string_app_assoc (a b c : string) : (a +:+ b) +:+ c = a +:+ (b +:+ c).
Proof. induction a as [|x a IH]; simpl; congruence. Qed.

Lemma string_app_nil_r (a : string) : a +:+ EmptyString = a.
Proof. induction a as [|x a IH]; simpl; congruence. Qed.

Lemma string_length_app (a b : string) :
  String.length (a +:+ b) = String.length a + String.length b.
Proof. induction a as [|x a IH]; simpl; congruence. Qed.

Lemma parse_string_escape_char (c : ascii) (rest : string) :
  JsonLoads.parse_string (Json.escape_char c +:+ rest) =
  JsonLoads.prepend (String c EmptyString) (JsonLoads.parse_string rest).
Proof.
  destruct c as [b0 b1 b2 b3 b4 b5 b6 b7].
  destruct b0, b1, b2, b3, b4, b5, b6, b7; reflexivity.
Qed.

Lemma parse_string_escape (s rest : string) :
  JsonLoads.parse_string (Json.escape s +:+ dq +:+ rest) = Some (s, rest).
Proof.
  induction s as [|c s IH].
  - reflexivity.
  - change (Json.escape (String c s))
      with (Json.escape_char c +:+ Json.escape s).
    rewrite string_app_assoc, parse_string_escape_char, IH.
    reflexivity.
Qed.

Lemma parse_json_string (s rest : string) :
  exists tail,
    Json.json_string s +:+ rest = String "034" tail /\
    JsonLoads.parse_string tail = Some (s, rest).
Proof.
  exists (Json.escape s +:+ dq +:+ rest). split.
  - unfold Json.json_string. rewrite !string_app_assoc. reflexivity.
  - apply parse_string_escape.
Qed.

Lemma encode_list_eq (l : list pyval) :
  Json.encode (PList l) = "[" +:+ Json.join_comma (map Json.encode l) +:+ "]".
Proof. reflexivity. Qed.

Lemma encode_dict_eq (d : list (string * pyval)) :
  Json.encode (PDict d) = "{" +:+ Json.join_comma (map encode_member d) +:+ "}".
Proof.
  simpl. do 3 f_equal.
  induction d as [|[k x] d IH]; simpl; [reflexivity | now rewrite IH].
Qed.

Lemma well_formed_list (l : list pyval) :
  well_formed (PList l) = forallb well_formed l.
Proof. reflexivity. Qed.

Lemma well_formed_dict (d : list (string * pyval)) :
  well_formed (PDict d) =
  unique_keys (map fst d) && forallb (fun kv => well_formed (snd kv)) d.
Proof.
  simpl. f_equal.
  induction d as [|[k x] d IH]; simpl; [reflexivity | now rewrite IH].
Qed.

Lemma nodes_list (l : list pyval) : nodes (PList l) = S (nodes_of_list l).
Proof.
  simpl. f_equal. unfold nodes_of_list.
  induction l as [|x l IH]; simpl; [reflexivity | now rewrite IH].
Qed.

Lemma nodes_dict (d : list (string * pyval)) :
  nodes (PDict d) = S (nodes_of_dict d).
Proof.
  simpl. f_equal. unfold nodes_of_dict.
  induction d as [|[k x] d IH]; simpl; [reflexivity | now rewrite IH].
Qed.

Lemma encode_opens (v : pyval) (rest : string) :
  exists c tail, Json.encode v +:+ rest = String c tail /\ opener c.
Proof.
  destruct v as [s|l|d].
  - eexists _, _. split; [reflexivity | constructor].
  - rewrite encode_list_eq. eexists _, _. split; [reflexivity | constructor].
  - rewrite encode_dict_eq. eexists _, _. split; [reflexivity | constructor].
Qed.

Lemma skip_ws_opener (c : ascii) (tail : string) :
  opener c -> JsonLoads.skip_ws (String c tail) = String c tail.
Proof. now destruct 1. Qed.

(** The three readers, one step each. *)
Lemma parse_value_S (fuel : nat) (s : string) :
  JsonLoads.parse_value (S fuel) s =
  match JsonLoads.skip_ws s with
  | String "034" r =>
      match JsonLoads.parse_string r with
      | Some (str, r') => Some (PStr str, r')
      | None => None
      end
  | String "[" r =>
      match JsonLoads.skip_ws r with
      | String "]" r' => Some (PList [], r')
      | _ =>
          match JsonLoads.parse_elements fuel r with
          | Some (l, r') => Some (PList l, r')
          | None => None
          end
      end
  | String "{" r =>
      match JsonLoads.skip_ws r with
      | String "}" r' => Some (PDict [], r')
      | _ =>
          match JsonLoads.parse_members fuel r with
          | Some (kvs, r') => Some (PDict (JsonLoads.dict_of_pairs kvs), r')
          | None => None
          end
      end
  | _ => None
  end.
Proof. reflexivity. Qed.

Lemma parse_elements_S (fuel : nat) (s : string) :
  JsonLoads.parse_elements (S fuel) s =
  match JsonLoads.parse_value fuel s with
  | Some (v, r) =>
      match JsonLoads.skip_ws r with
      | String "," r' =>
          match JsonLoads.parse_elements fuel r' with
          | Some (vs, r'') => Some (v :: vs, r'')
          | None => None
          end
      | String "]" r' => Some ([v], r')
      | _ => None
      end
  | None => None
  end.
Proof. reflexivity. Qed.

Lemma parse_members_S (fuel : nat) (s : string) :
  JsonLoads.parse_members (S fuel) s =
  match JsonLoads.skip_ws s with
  | String "034" r =>
      match JsonLoads.parse_string r with
      | Some (k, r1) =>
          match JsonLoads.skip_ws r1 with
          | String ":" r2 =>
              match JsonLoads.parse_value fuel r2 with
              | Some (v, r3) =>
                  match JsonLoads.skip_ws r3 with
                  | String "," r4 =>
                      match JsonLoads.parse_members fuel r4 with
                      | Some (kvs, r5) => Some ((k, v) :: kvs, r5)
                      | None => None
                      end
                  | String "}" r4 => Some ([(k, v)], r4)
                  | _ => None
                  end
              | None => None
              end
          | _ => None
          end
      | None => None
      end
  | _ => None
  end.
Proof. reflexivity. Qed.

(** A dict read member by member is the list of its members when no key
    comes twice. *)
Lemma existsb_eqb_false (k : string) (l : list string) :
  existsb (String.eqb k) l = false <-> ~ In k l.
Proof.
  induction l as [|x l IH]; simpl.
  - tauto.
  - rewrite orb_false_iff, IH, String.eqb_neq. intuition congruence.
Qed.

Lemma dict_set_fresh (k : string) (v : pyval) (d : list (string * pyval)) :
  ~ In k (map fst d) -> JsonLoads.dict_set k v d = d ++ [(k, v)].
Proof.
  induction d as [|[k' v'] d IH]; simpl; intros Hk.
  - reflexivity.
  - destruct (String.eqb_spec k' k) as [->|Hne].
    + tauto.
    + rewrite IH; [reflexivity | tauto].
Qed.

Lemma fold_dict_set (kvs acc : list (string * pyval)) :
  unique_keys (map fst kvs) = true ->
  (forall k, In k (map fst kvs) -> ~ In k (map fst acc)) ->
  fold_left (fun d kv => JsonLoads.dict_set (fst kv) (snd kv) d) kvs acc =
  acc ++ kvs.
Proof.
  revert acc. induction kvs as [|[k v] kvs IH]; simpl; intros acc Hu Hd.
  - now rewrite app_nil_r.
  - apply andb_true_iff in Hu as [Hk Hu].
    apply negb_true_iff, existsb_eqb_false in Hk.
    rewrite dict_set_fresh by (apply Hd; now left).
    rewrite IH; [now rewrite <- app_assoc | assumption |].
    intros k' Hk'. rewrite map_app, in_app_iff. simpl.
    intros [Hin | [<- | []]].
    + apply (Hd k'); [now right | assumption].
    + contradiction.
Qed.

Lemma dict_of_pairs_unique (d : list (string * pyval)) :
  unique_keys (map fst d) = true -> JsonLoads.dict_of_pairs d = d.
Proof.
  intros Hu. unfold JsonLoads.dict_of_pairs.
  rewrite fold_dict_set; [reflexivity | assumption | intros k _ []].
Qed.

Lemma parse_elements_encode (l : list pyval) :
  Forall reads_back l ->
  l <> [] ->
  forallb well_formed l = true ->
  forall fuel rest,
    nodes_of_list l <= fuel ->
    JsonLoads.parse_elements fuel
      (Json.join_comma (map Json.encode l) +:+ "]" +:+ rest) = Some (l, rest).
Proof.
  induction l as [|x xs IH]; intros HF Hne Hwf fuel rest Hfuel.
  - congruence.
  - apply Forall_cons_iff in HF as [Hx Hxs].
    simpl in Hwf. apply andb_true_iff in Hwf as [Hwx Hwxs].
    unfold nodes_of_list in Hfuel. simpl in Hfuel.
    fold (nodes_of_list xs) in Hfuel.
    destruct fuel as [|fuel]; [lia|].
    rewrite parse_elements_S.
    destruct xs as [|y ys].
    + simpl map. simpl Json.join_comma.
      rewrite (Hx Hwx fuel) by lia. reflexivity.
    + change (Json.join_comma (map Json.encode (x :: y :: ys)))
        with (Json.encode x +:+ "," +:+
              Json.join_comma (map Json.encode (y :: ys))).
      rewrite !string_app_assoc.
      rewrite (Hx Hwx fuel) by lia.
      change (JsonLoads.skip_ws ("," +:+ ?t)) with (String "," t).
      cbv beta iota.
      rewrite IH; [reflexivity | assumption | discriminate | assumption | lia].
Qed.

Lemma parse_members_encode (d : list (string * pyval)) :
  Forall (fun kv => reads_back (snd kv)) d ->
  d <> [] ->
  forallb (fun kv => well_formed (snd kv)) d = true ->
  forall fuel rest,
    nodes_of_dict d <= fuel ->
    JsonLoads.parse_members fuel
      (Json.join_comma (map encode_member d) +:+ "}" +:+ rest) = Some (d, rest).
Proof.
  induction d as [|[k x] kvs IH]; intros HF Hne Hwf fuel rest Hfuel.
  - congruence.
  - apply Forall_cons_iff in HF as [Hx Hxs]. simpl in Hx.
    simpl in Hwf. apply andb_true_iff in Hwf as [Hwx Hwxs].
    unfold nodes_of_dict in Hfuel. simpl in Hfuel.
    fold (nodes_of_dict kvs) in Hfuel.
    destruct fuel as [|fuel]; [lia|].
    rewrite parse_members_S.
    destruct kvs as [|kv kvs'].
    + simpl map. simpl Json.join_comma. unfold encode_member. simpl fst.
      simpl snd. rewrite !string_app_assoc.
      destruct (parse_json_string k (":" +:+ Json.encode x +:+ "}" +:+ rest))
        as (tail & -> & Hk).
      change (JsonLoads.skip_ws (String "034" tail)) with (String "034" tail).
      cbv beta iota. rewrite Hk.
      change (JsonLoads.skip_ws (":" +:+ ?t)) with (String ":" t).
      cbv beta iota.
      rewrite (Hx Hwx fuel) by lia. reflexivity.
    + change (Json.join_comma (map encode_member ((k, x) :: kv :: kvs')))
        with ((Json.json_string k +:+ ":" +:+ Json.encode x) +:+ "," +:+
              Json.join_comma (map encode_member (kv :: kvs'))).
      rewrite !string_app_assoc.
      destruct (parse_json_string k
                  (":" +:+ Json.encode x +:+ "," +:+
                   Json.join_comma (map encode_member (kv :: kvs')) +:+
                   "}" +:+ rest)) as (tail & -> & Hk).
      change (JsonLoads.skip_ws (String "034" tail)) with (String "034" tail).
      cbv beta iota. rewrite Hk.
      change (JsonLoads.skip_ws (":" +:+ ?t)) with (String ":" t).
      cbv beta iota.
      rewrite (Hx Hwx fuel) by lia.
      change (JsonLoads.skip_ws ("," +:+ ?t)) with (String "," t).
      cbv beta iota.
      rewrite IH; [reflexivity | assumption | discriminate | assumption | lia].
Qed.

Lemma join_encode_opens (x : pyval) (xs : list pyval) (rest : string) :
  exists c tail,
    Json.join_comma (map Json.encode (x :: xs)) +:+ rest = String c tail /\
    opener c.
Proof.
  destruct xs as [|y ys].
  - apply encode_opens.
  - change (Json.join_comma (map Json.encode (x :: y :: ys)))
      with (Json.encode x +:+ "," +:+
            Json.join_comma (map Json.encode (y :: ys))).
    rewrite string_app_assoc. apply encode_opens.
Qed.

Lemma join_member_opens (kv : string * pyval) (kvs : list (string * pyval))
    (rest : string) :
  exists tail,
    Json.join_comma (map encode_member (kv :: kvs)) +:+ rest =
    String "034" tail.
Proof.
  destruct kvs as [|kv' kvs']; simpl map; simpl Json.join_comma;
    unfold encode_member at 1, Json.json_string;
    rewrite !string_app_assoc; eexists; reflexivity.
Qed.

Lemma parse_value_encode (v : pyval) : reads_back v.
Proof.
  induction v as [s|l IH|d IH] using pyval_ind; intros Hwf fuel rest Hfuel.
  - destruct fuel as [|fuel]; [simpl in Hfuel; lia|].
    rewrite parse_value_S. simpl Json.encode.
    destruct (parse_json_string s rest) as (tail & -> & Hs).
    change (JsonLoads.skip_ws (String "034" tail)) with (String "034" tail).
    cbv beta iota. now rewrite Hs.
  - rewrite nodes_list in Hfuel. rewrite well_formed_list in Hwf.
    destruct fuel as [|fuel]; [lia|].
    rewrite parse_value_S, encode_list_eq, !string_app_assoc.
    change (JsonLoads.skip_ws ("[" +:+ ?t)) with (String "[" t).
    cbv beta iota.
    destruct l as [|x xs].
    + reflexivity.
    + pose proof (parse_elements_encode (x :: xs) IH ltac:(discriminate) Hwf
                    fuel rest ltac:(lia)) as Hl.
      destruct (join_encode_opens x xs ("]" +:+ rest)) as (c & tail & E & Hc).
      rewrite E in Hl |- *. rewrite (skip_ws_opener _ _ Hc).
      destruct Hc; cbv beta iota; now rewrite Hl.
  - rewrite nodes_dict in Hfuel. rewrite well_formed_dict in Hwf.
    apply andb_true_iff in Hwf as [Hu Hwf].
    destruct fuel as [|fuel]; [lia|].
    rewrite parse_value_S, encode_dict_eq, !string_app_assoc.
    change (JsonLoads.skip_ws ("{" +:+ ?t)) with (String "{" t).
    cbv beta iota.
    destruct d as [|kv kvs].
    + reflexivity.
    + pose proof (parse_members_encode (kv :: kvs) IH ltac:(discriminate)
                    Hwf fuel rest ltac:(lia)) as Hd.
      destruct (join_member_opens kv kvs ("}" +:+ rest)) as (tail & E).
      rewrite E in Hd |- *.
      change (JsonLoads.skip_ws (String "034" tail)) with (String "034" tail).
      cbv beta iota. rewrite Hd.
      now rewrite (dict_of_pairs_unique _ Hu).
Qed.

(** The text of a value is longer than the value has nodes. *)
Lemma join_comma_length (l : list string) :
  list_sum (map String.length l) <= String.length (Json.join_comma l).
Proof.
  induction l as [|x xs IH]; simpl.
  - lia.
  - destruct xs as [|y ys].
    + simpl. lia.
    + rewrite !string_length_app. simpl in *. lia.
Qed.

Lemma nodes_lt_length (v : pyval) : nodes v < String.length (Json.encode v).
Proof.
  induction v as [s|l IH|d IH] using pyval_ind.
  - simpl. unfold Json.json_string. rewrite !string_length_app. simpl. lia.
  - rewrite nodes_list, encode_list_eq. rewrite !string_length_app.
    pose proof (join_comma_length (map Json.encode l)) as Hj.
    assert (nodes_of_list l <= list_sum (map String.length (map Json.encode l))).
    { clear Hj. unfold nodes_of_list.
      induction IH as [|x xs Hx _ IHxs]; simpl in *; lia. }
    simpl. lia.
  - rewrite nodes_dict, encode_dict_eq. rewrite !string_length_app.
    pose proof (join_comma_length (map encode_member d)) as Hj.
    assert (nodes_of_dict d <= list_sum (map String.length (map encode_member d))).
    { clear Hj. unfold nodes_of_dict.
      induction IH as [|[k x] kvs Hx _ IHkvs]; [simpl; lia|].
      simpl in Hx. rewrite !map_cons.
      change (list_sum (?a :: ?l)) with (a + list_sum l).
      unfold encode_member at 1. rewrite !string_length_app.
      cbn [snd]. lia. }
    simpl. lia.
Qed.

(** Reading the text of a well-formed value gives the value. *)
Lemma loads_encode (v : pyval) :
  well_formed v = true -> JsonLoads.loads (Json.encode v) = Some v.
Proof.
  intros Hwf. unfold JsonLoads.loads.
  pose proof (nodes_lt_length v) as Hn.
  pose proof (parse_value_encode v Hwf (S (String.length (Json.encode v)))
                EmptyString ltac:(lia)) as Hp.
  rewrite string_app_nil_r in Hp. now rewrite Hp.
Qed.

(** [json()] writes the text of [model_dump()]. *)
Lemma AnexosXmlItem_json_encode (a : MedicalsGmailAgentSchema__AnexosXmlItem) :
  Json.AnexosXmlItem_json a = Json.encode (ModelDump.AnexosXmlItem a).
Proof. reflexivity. Qed.

Lemma encode_list_map {A : Type} (dump : A -> pyval) (json : A -> string)
    (l : list A) :
  (forall a, json a = Json.encode (dump a)) ->
  "[" +:+ Json.join_comma (map json l) +:+ "]" =
  Json.encode (PList (map dump l)).
Proof.
  intros H. rewrite encode_list_eq, map_map.
  do 3 f_equal. apply map_ext, H.
Qed.

Lemma EmailsItem_json_encode (e : MedicalsGmailAgentSchema__EmailsItem) :
  Json.EmailsItem_json e = Json.encode (ModelDump.EmailsItem e).
Proof.
  unfold Json.EmailsItem_json.
  rewrite (encode_list_map ModelDump.AnexosXmlItem _ _
             AnexosXmlItem_json_encode).
  reflexivity.
Qed.

Lemma Schema_json_encode (m : MedicalsGmailAgentSchema) :
  Json.Schema_json m = Json.encode (ModelDump.Schema m).
Proof.
  unfold Json.Schema_json.
  rewrite (encode_list_map ModelDump.EmailsItem _ _ EmailsItem_json_encode).
  reflexivity.
Qed.

Lemma well_formed_dump_email (e : MedicalsGmailAgentSchema__EmailsItem) :
  well_formed (ModelDump.EmailsItem e) = true.
Proof.
  unfold ModelDump.EmailsItem. rewrite well_formed_dict. simpl.
  rewrite andb_true_r.
  change (forallb well_formed (map ModelDump.AnexosXmlItem (anexos_xml e)) = true).
  rewrite forallb_forall. intros v Hv.
  apply in_map_iff in Hv as (a & <- & _). reflexivity.
Qed.

Lemma well_formed_dump_schema (m : MedicalsGmailAgentSchema) :
  well_formed (ModelDump.Schema m) = true.
Proof.
  unfold ModelDump.Schema. rewrite well_formed_dict. simpl.
  rewrite andb_true_r.
  change (forallb well_formed (map ModelDump.EmailsItem (emails m)) = true).
  rewrite forallb_forall. intros v Hv.
  apply in_map_iff in Hv as (e & <- & _). apply well_formed_dump_email.
Qed.

Lemma loads_Schema_json (m : MedicalsGmailAgentSchema) :
  JsonLoads.loads (Json.Schema_json m) = Some (ModelDump.Schema m).
Proof.
  rewrite Schema_json_encode. apply loads_encode, well_formed_dump_schema.
Qed.

(** ** The claims on the tool binding *)

(** The literal of lines 79-146 is rejected where its first stray brace
    opens a replacement field. *)
Lemma instructions_fstring_scan :
  fstring_scan None instructions_fstring = inl BackslashInExpression.
Proof. vm_compute. reflexivity. Qed.

(** C4. The import of the module does not reach the tool binding: for every
    environment, with the authorization expression or without it, the
    compiler rejects the literal of lines 79-146 and the import raises
    SyntaxError before line 24 runs, so what the process reports at its
    start is not the error of lines 26-28 that names the missing setting. *)
Theorem import_raises_SyntaxError_before_the_tool_binding
    (json_dumps : pyval -> string) (environ : gmap string string) :
  import_gmail_agent json_dumps environ
    = inl (OtherException "SyntaxError"
             "f-string expression part cannot include a backslash") /\
  import_gmail_agent json_dumps environ
    <> inl (RuntimeError
              "Missing GMAIL_MCP_AUTH_EXPRESSION env var required for Gmail MCP access.").
Proof.
  unfold import_gmail_agent, fstring_compile.
  rewrite instructions_fstring_scan. split; [reflexivity | discriminate].
Qed.

(** X1. The function [_gmail_mcp_tool] by itself, on every environment:
    without an expression, or with an empty one, it raises the error that
    names the missing setting and gives no binding; with any other it
    returns a binding, whose allow-list is the six operations. *)
Theorem gmail_mcp_tool_outcomes
    (json_dumps : pyval -> string) (environ : gmap string string) :
  ((environ !! "GMAIL_MCP_AUTH_EXPRESSION" = None \/
    environ !! "GMAIL_MCP_AUTH_EXPRESSION" = Some EmptyString) /\
   _gmail_mcp_tool json_dumps environ
     = inl (RuntimeError
              "Missing GMAIL_MCP_AUTH_EXPRESSION env var required for Gmail MCP access."))
  \/
  (exists expr tool,
     environ !! "GMAIL_MCP_AUTH_EXPRESSION" = Some expr /\
     expr <> EmptyString /\
     _gmail_mcp_tool json_dumps environ = inr tool /\
     allowed_tools tool
       = Some (PList [ PStr "batch_read_email"; PStr "get_profile";
                       PStr "get_recent_emails"; PStr "read_email";
                       PStr "search_email_ids"; PStr "search_emails" ])).
Proof.
  destruct (py_not (environ !! "GMAIL_MCP_AUTH_EXPRESSION")) eqn:E.
  - left. split.
    + now apply py_not_true_iff.
    + now apply gmail_mcp_tool_raises.
  - right. destruct (environ !! "GMAIL_MCP_AUTH_EXPRESSION") as [expr|] eqn:G;
      [| discriminate].
    simpl in E. apply String.eqb_neq in E.
    destruct (gmail_mcp_tool_returns json_dumps environ expr G E)
      as (tool & Ht & Ha).
    exists expr, tool. auto.
Qed.

(** C6. For every authorization expression that is not empty, building the
    tool binding succeeds, and the allow-list of the binding is the list of
    the six operation names, these and no other. *)
Theorem allow_list_is_the_six_operations
    (json_dumps : pyval -> string) (environ : gmap string string)
    (expr : string) :
  environ !! "GMAIL_MCP_AUTH_EXPRESSION" = Some expr ->
  expr <> EmptyString ->
  exists tool,
    _gmail_mcp_tool json_dumps environ = inr tool /\
    allowed_tools tool
      = Some (PList [ PStr "batch_read_email"; PStr "get_profile";
                      PStr "get_recent_emails"; PStr "read_email";
                      PStr "search_email_ids"; PStr "search_emails" ]).
Proof. apply gmail_mcp_tool_returns. Qed.

Lemma allow_list_is_the_six_operations_witness :
  Sample.authorization !! "GMAIL_MCP_AUTH_EXPRESSION"
    = Some "request.auth.token" /\
  "request.auth.token" <> EmptyString /\
  exists tool,
    _gmail_mcp_tool Json.encode Sample.authorization = inr tool /\
    allowed_tools tool
      = Some (PList [ PStr "batch_read_email"; PStr "get_profile";
                      PStr "get_recent_emails"; PStr "read_email";
                      PStr "search_email_ids"; PStr "search_emails" ]).
Proof.
  assert (Hget : Sample.authorization !! "GMAIL_MCP_AUTH_EXPRESSION"
                 = Some "request.auth.token") by apply lookup_singleton_eq.
  assert (Hne : "request.auth.token" <> EmptyString) by discriminate.
  split; [exact Hget |]. split; [exact Hne |].
  exact (allow_list_is_the_six_operations Json.encode Sample.authorization
           _ Hget Hne).
Defined.

(** ** The claims on the workflow runner *)

Section RunnerClaims.

Context {RunItem : Type} (to_input_item : RunItem -> pyval).
Context {EngineState : Type}.
Context (Runner_run :
  RunnerCall -> EngineState
  -> (exception + RunResult RunItem) * EngineState).

(** C1, as the code has it. When the engine returns its result, the run
    returns a dict of two members and raises nothing: [output_parsed] is a
    dict whose one key, [emails], holds the list of the emails in the
    engine's order, each a dict of its id, sender, subject, date and the
    list of its attachment records in order; [output_text] is the JSON
    text of that dict. With no email the run returns the text of a dict
    with an empty [emails] list and that dict. *)
Theorem output_parsed_is_the_emails_dict
    (g : module_globals) (workflow_input : WorkflowInput)
    (w : world EngineState) (r : RunResult RunItem) (s : EngineState) :
  Runner_run (the_call g workflow_input) (engine w) = (inr r, s) ->
  exists w',
    run_workflow to_input_item Runner_run g workflow_input w
      = (inr (PDict
                [ ("output_text", PStr (Json.Schema_json (final_output r)));
                  ("output_parsed",
                    PDict [ ("emails",
                              PList (map ModelDump.EmailsItem
                                         (emails (final_output r)))) ]) ]),
         w') /\
    Json.Schema_json (final_output r)
      = Json.encode
          (PDict [ ("emails",
                     PList (map ModelDump.EmailsItem
                                (emails (final_output r)))) ]) /\
    (forall e,
       ModelDump.EmailsItem e
         = PDict
             [ ("email_id", PStr (email_id e));
               ("remetente", PStr (remetente e));
               ("assunto", PStr (assunto e));
               ("data", PStr (data e));
               ("anexos_xml",
                 PList (map (fun a =>
                               PDict [ ("nome_arquivo",
                                         PStr (nome_arquivo a));
                                       ("conteudo_codificado",
                                         PStr (conteudo_codificado a)) ])
                            (anexos_xml e))) ]) /\
    (emails (final_output r) = [] ->
     run_workflow to_input_item Runner_run g workflow_input w
       = (inr (PDict
                 [ ("output_text",
                     PStr ("{" +:+ dq +:+ "emails" +:+ dq +:+ ":[]}"));
                   ("output_parsed", PDict [ ("emails", PList []) ]) ]),
          w')).
Proof.
  intros Hrun. exists (after_call g workflow_input w s).
  rewrite run_workflow_unfold, Hrun.
  split; [reflexivity |].
  split; [apply (Schema_json_encode (final_output r)) |].
  split; [reflexivity |].
  intros Hnone. unfold package, Json.Schema_json, ModelDump.Schema.
  rewrite Hnone. reflexivity.
Qed.

(** C2. The run returns what the engine returned, whatever its size:
    [output_parsed] is the dump of the engine's final output, from which
    validation gives that output back, with as many attachment records
    as the engine returned. *)
Theorem output_is_the_engine_output_unchanged
    (g : module_globals) (workflow_input : WorkflowInput)
    (w : world EngineState) (r : RunResult RunItem) (s : EngineState) :
  Runner_run (the_call g workflow_input) (engine w) = (inr r, s) ->
  exists res w' parsed,
    run_workflow to_input_item Runner_run g workflow_input w = (inr res, w') /\
    getitem res "output_parsed" = inr parsed /\
    parsed = ModelDump.Schema (final_output r) /\
    ModelValidate.Schema parsed = Some (final_output r) /\
    anexos_in_output parsed = total_anexos (final_output r).
Proof.
  intros Hrun.
  exists (package (final_output r)), (after_call g workflow_input w s),
    (ModelDump.Schema (final_output r)).
  rewrite run_workflow_unfold, Hrun.
  repeat split.
  - apply validate_dump_schema.
  - apply anexos_in_output_dump.
Qed.

(** C3. In the result of a run, reading [output_text] as JSON gives the
    value of [output_parsed]. *)
Theorem output_text_reads_as_output_parsed
    (g : module_globals) (workflow_input : WorkflowInput)
    (w w' : world EngineState) (res : pyval) :
  run_workflow to_input_item Runner_run g workflow_input w = (inr res, w') ->
  exists text parsed,
    res = PDict [ ("output_text", PStr text); ("output_parsed", parsed) ] /\
    JsonLoads.loads text = Some parsed.
Proof.
  rewrite run_workflow_unfold.
  destruct (Runner_run (the_call g workflow_input) (engine w))
    as [[e|r] s]; intros Hres; [discriminate |].
  injection Hres as <- _.
  exists (Json.Schema_json (final_output r)),
    (ModelDump.Schema (final_output r)).
  split; [reflexivity | apply loads_Schema_json].
Qed.

(** C7. If the engine raises, the run raises the same exception and
    returns no result; the trace scope was entered once and left once, and
    leaving it is the last thing the run did. *)
Theorem engine_exception_propagates
    (g : module_globals) (workflow_input : WorkflowInput)
    (w : world EngineState) (e : exception) (s : EngineState) :
  Runner_run (the_call g workflow_input) (engine w) = (inl e, s) ->
  exists added,
    run_workflow to_input_item Runner_run g workflow_input w
      = (inl e, {| events := events w ++ added; engine := s |}) /\
    added = [ TraceStart "NF-MEDICOS";
              EngineInvoked (the_call g workflow_input);
              TraceFinish "NF-MEDICOS" ] /\
    length (List.filter is_start added) = 1 /\
    length (List.filter is_finish added) = 1.
Proof.
  intros Hrun. eexists. rewrite run_workflow_unfold, Hrun.
  split; [reflexivity |]. split; [reflexivity |]. split; reflexivity.
Qed.

(** C8. The engine is called with a conversation of one item, of role
    user, that holds the caller's text; when the engine returns, the
    conversation history is that item followed by the engine's new items,
    converted, in the engine's order. *)
Theorem conversation_history_is_seed_then_new_items
    (g : module_globals) (workflow_input : WorkflowInput)
    (w : world EngineState) (r : RunResult RunItem) (s : EngineState) :
  Runner_run (the_call g workflow_input) (engine w) = (inr r, s) ->
  exists fr w' first,
    first = PDict
              [ ("role", PStr "user");
                ("content",
                  PList [ PDict [ ("type", PStr "input_text");
                                  ("text",
                                    PStr (input_as_text workflow_input)) ] ]) ] /\
    run_workflow_frame to_input_item Runner_run g workflow_input w
      = (inr fr, w') /\
    events w' = events w ++ [ TraceStart "NF-MEDICOS";
                              EngineInvoked (the_call g workflow_input);
                              TraceFinish "NF-MEDICOS" ] /\
    call_input (the_call g workflow_input) = [ first ] /\
    conversation_history fr
      = [ first ] ++ map to_input_item (new_items r).
Proof.
  intros Hrun. do 3 eexists. rewrite run_workflow_frame_unfold, Hrun.
  split; [reflexivity |]. split; [reflexivity |].
  split; [reflexivity |]. split; reflexivity.
Qed.

(** C10. Whatever the input, a run calls the engine once, between
    entering and leaving the trace scope, and the context of that call
    has the discriminator MEDICALS. *)
Theorem run_context_is_MEDICALS
    (g : module_globals) (workflow_input : WorkflowInput)
    (w : world EngineState) :
  exists call,
    events (snd (run_workflow to_input_item Runner_run g workflow_input w))
      = events w ++ [ TraceStart "NF-MEDICOS";
                      EngineInvoked call;
                      TraceFinish "NF-MEDICOS" ] /\
    call_context call = {| state_subsidiaria := "MEDICALS" |}.
Proof.
  exists (the_call g workflow_input). rewrite run_workflow_unfold.
  destruct (Runner_run (the_call g workflow_input) (engine w))
    as [[e|r] s]; split; reflexivity.
Qed.

End RunnerClaims.

(** ** Witnesses of the claims on the workflow runner *)

Lemma output_parsed_is_the_emails_dict_witness :
  Sample.answer_with (inr Sample.no_emails)
    (the_call Sample.globals Sample.input) (engine Sample.start)
    = (inr Sample.no_emails, tt) /\
  exists w',
    run_workflow Sample.as_it_is (Sample.answer_with (inr Sample.no_emails))
                 Sample.globals Sample.input Sample.start
      = (inr (PDict
                [ ("output_text",
                    PStr (Json.Schema_json (final_output Sample.no_emails)));
                  ("output_parsed",
                    PDict [ ("emails",
                              PList (map ModelDump.EmailsItem
                                         (emails (final_output Sample.no_emails)))) ]) ]),
         w') /\
    Json.Schema_json (final_output Sample.no_emails)
      = Json.encode
          (PDict [ ("emails",
                     PList (map ModelDump.EmailsItem
                                (emails (final_output Sample.no_emails)))) ]) /\
    (forall e,
       ModelDump.EmailsItem e
         = PDict
             [ ("email_id", PStr (email_id e));
               ("remetente", PStr (remetente e));
               ("assunto", PStr (assunto e));
               ("data", PStr (data e));
               ("anexos_xml",
                 PList (map (fun a =>
                               PDict [ ("nome_arquivo", PStr (nome_arquivo a));
                                       ("conteudo_codificado",
                                         PStr (conteudo_codificado a)) ])
                            (anexos_xml e))) ]) /\
    (emails (final_output Sample.no_emails) = [] ->
     run_workflow Sample.as_it_is (Sample.answer_with (inr Sample.no_emails))
                  Sample.globals Sample.input Sample.start
       = (inr (PDict
                 [ ("output_text",
                     PStr ("{" +:+ dq +:+ "emails" +:+ dq +:+ ":[]}"));
                   ("output_parsed", PDict [ ("emails", PList []) ]) ]),
          w')).
Proof.
  split; [reflexivity |].
  exact (output_parsed_is_the_emails_dict Sample.as_it_is
           (Sample.answer_with (inr Sample.no_emails)) Sample.globals
           Sample.input Sample.start Sample.no_emails tt eq_refl).
Defined.

(** The claim C1 as the specification states it fails on a run with no
    email: [output_parsed] is a dict, not an empty list, and [output_text]
    is not the text of an empty list. *)
Lemma zero_emails_output_is_not_a_sequence :
  exists res w',
    run_workflow Sample.as_it_is (Sample.answer_with (inr Sample.no_emails))
                 Sample.globals Sample.input Sample.start = (inr res, w') /\
    getitem res "output_parsed" = inr (PDict [ ("emails", PList []) ]) /\
    getitem res "output_parsed" <> inr (PList []) /\
    (forall es,
       getitem res "output_parsed" <> inr (PList (map ModelDump.EmailsItem es))) /\
    getitem res "output_text" <> inr (PStr "[]").
Proof.
  do 2 eexists. split; [reflexivity |].
  split; [reflexivity |].
  split; [discriminate |]. split; [discriminate | discriminate].
Qed.

Lemma output_is_the_engine_output_unchanged_witness :
  Sample.answer_with (inr Sample.many_anexos)
    (the_call Sample.globals Sample.input) (engine Sample.start)
    = (inr Sample.many_anexos, tt) /\
  total_anexos (final_output Sample.many_anexos) = 901 /\
  exists res w' parsed,
    run_workflow Sample.as_it_is (Sample.answer_with (inr Sample.many_anexos))
                 Sample.globals Sample.input Sample.start = (inr res, w') /\
    getitem res "output_parsed" = inr parsed /\
    parsed = ModelDump.Schema (final_output Sample.many_anexos) /\
    ModelValidate.Schema parsed = Some (final_output Sample.many_anexos) /\
    anexos_in_output parsed = total_anexos (final_output Sample.many_anexos).
Proof.
  split; [reflexivity |]. split; [reflexivity |].
  exact (output_is_the_engine_output_unchanged Sample.as_it_is
           (Sample.answer_with (inr Sample.many_anexos)) Sample.globals
           Sample.input Sample.start Sample.many_anexos tt eq_refl).
Defined.

Lemma output_text_reads_as_output_parsed_witness :
  run_workflow Sample.as_it_is (Sample.answer_with (inr Sample.one_email))
               Sample.globals Sample.input Sample.start
    = (inr (package (final_output Sample.one_email)),
       after_call Sample.globals Sample.input Sample.start tt) /\
  exists text parsed,
    package (final_output Sample.one_email)
      = PDict [ ("output_text", PStr text); ("output_parsed", parsed) ] /\
    JsonLoads.loads text = Some parsed.
Proof.
  assert (H : run_workflow Sample.as_it_is
                (Sample.answer_with (inr Sample.one_email))
                Sample.globals Sample.input Sample.start
              = (inr (package (final_output Sample.one_email)),
                 after_call Sample.globals Sample.input Sample.start tt))
    by reflexivity.
  split; [exact H |].
  exact (output_text_reads_as_output_parsed Sample.as_it_is
           (Sample.answer_with (inr Sample.one_email)) Sample.globals
           Sample.input Sample.start _ _ H).
Defined.

Lemma engine_exception_propagates_witness :
  Sample.answer_with (inl Sample.timeout)
    (the_call Sample.globals Sample.input) (engine Sample.start)
    = (inl Sample.timeout, tt) /\
  exists added,
    run_workflow Sample.as_it_is (Sample.answer_with (inl Sample.timeout))
                 Sample.globals Sample.input Sample.start
      = (inl Sample.timeout,
         {| events := events Sample.start ++ added; engine := tt |}) /\
    added = [ TraceStart "NF-MEDICOS";
              EngineInvoked (the_call Sample.globals Sample.input);
              TraceFinish "NF-MEDICOS" ] /\
    length (List.filter is_start added) = 1 /\
    length (List.filter is_finish added) = 1.
Proof.
  split; [reflexivity |].
  exact (engine_exception_propagates Sample.as_it_is
           (Sample.answer_with (inl Sample.timeout)) Sample.globals
           Sample.input Sample.start Sample.timeout tt eq_refl).
Defined.

Lemma conversation_history_is_seed_then_new_items_witness :
  Sample.answer_with (inr Sample.many_anexos)
    (the_call Sample.globals Sample.input) (engine Sample.start)
    = (inr Sample.many_anexos, tt) /\
  exists fr w' first,
    first = PDict
              [ ("role", PStr "user");
                ("content",
                  PList [ PDict [ ("type", PStr "input_text");
                                  ("text", PStr "run") ] ]) ] /\
    run_workflow_frame Sample.as_it_is
      (Sample.answer_with (inr Sample.many_anexos))
      Sample.globals Sample.input Sample.start = (inr fr, w') /\
    events w' = events Sample.start
                  ++ [ TraceStart "NF-MEDICOS";
                       EngineInvoked (the_call Sample.globals Sample.input);
                       TraceFinish "NF-MEDICOS" ] /\
    call_input (the_call Sample.globals Sample.input) = [ first ] /\
    conversation_history fr
      = [ first ] ++ map Sample.as_it_is [ Sample.reply; Sample.reply ].
Proof.
  split; [reflexivity |].
  exact (conversation_history_is_seed_then_new_items Sample.as_it_is
           (Sample.answer_with (inr Sample.many_anexos)) Sample.globals
           Sample.input Sample.start Sample.many_anexos tt eq_refl).
Defined.

(** ** The claims on the instruction generator *)

(** C5. The literal of lines 79-146, as the source has it, is not a
    formatted string the compiler accepts: the brace that opens the JSON
    example on line 97 opens a replacement field, and the text of that field
    has a backslash. *)
Theorem instructions_literal_is_rejected :
  fstring_compile instructions_fstring = inl BackslashInExpression.
Proof. vm_compute. reflexivity. Qed.

